(** * A shallow embedding of [rdapi.py], the Real-Debrid REST client.

    The Python module defines one class [RD] holding the API token, the base
    URL, the [Authorization] header and the error-code table loaded from
    [error_codes.json], with four request primitives ([get], [post], [put],
    [delete]) that go through [handler], and nested resource groups that are
    thin call sites of these primitives.

    Effects are modelled explicitly: the client object and the logging
    output and the requests sent over the wire are threaded through a small
    state-and-exception monad.  The [requests] transport, the JSON decoder
    behind [Response.json()] and the file system behind [open] are library
    code outside the repository; they are taken as parameters of the
    development (Section variables), so every theorem holds for all of
    them. *)

#[local] Set Warnings "-register-all".
From Stdlib Require Import String List ZArith Bool Lia.
Import ListNotations.
Open Scope string_scope.
Open Scope list_scope.

(** ** Python values *)

(** Values produced by [json.load] / [Response.json()]. *)
Inductive json : Type :=
| JNull
| JBool (b : bool)
| JNum (z : Z)
| JStr (s : string)
| JArr (xs : list json)
| JObj (kvs : list (string * json)).

(** Exceptions that occur in the module. [RequestException] covers the other
    subclasses of [requests.exceptions.RequestException]. *)
Inductive exn : Type :=
| HTTPError
| ConnectionError
| Timeout
| RequestException
| JSONDecodeError
| TypeError
| KeyError
| AttributeError
| ValueError
| FileNotFoundError.

(** Keyword-argument values passed to the request primitives: a string, an
    integer or [None]. *)
Inductive pyarg : Type :=
| PStr (s : string)
| PInt (z : Z)
| PNone.

(** Result of a Python computation: a value or a raised exception. *)
Inductive res (A : Type) : Type :=
| Ok (a : A)
| Exc (e : exn).
Arguments Ok {A} a.
Arguments Exc {A} e.

Definition res_bind {A B} (m : res A) (k : A -> res B) : res B :=
  match m with Ok a => k a | Exc e => Exc e end.

Notation "x <-? m ;; k" := (res_bind m (fun x => k))
  (at level 61, m at next level, right associativity).

(** ** Dictionaries *)

(** [d[k]] / [d.get(k)] on a dict decoded from a JSON object: the last
    binding of a key wins, as in [json.load]. *)
Fixpoint obj_get (k : string) (kvs : list (string * json)) : option json :=
  match kvs with
  | [] => None
  | (k', v) :: t =>
      match obj_get k t with
      | Some w => Some w
      | None => if String.eqb k k' then Some v else None
      end
  end.

(** [str in s]: substring test. *)
Fixpoint is_substring (needle hay : string) : bool :=
  String.prefix needle hay ||
  match hay with
  | EmptyString => false
  | String _ t => is_substring needle t
  end.

(** Python's [k in v] for a string [k] and a decoded JSON value [v]. *)
Definition py_contains (k : string) (v : json) : res bool :=
  match v with
  | JObj kvs => Ok (existsb (fun p => String.eqb (fst p) k) kvs)
  | JArr xs =>
      Ok (existsb (fun x => match x with JStr s => String.eqb s k | _ => false end) xs)
  | JStr s => Ok (is_substring k s)
  | _ => Exc TypeError (* argument of type 'int' / 'bool' / 'NoneType' is not iterable *)
  end.

(** Python's [v[k]] for a string [k]. *)
Definition py_getitem (v : json) (k : string) : res json :=
  match v with
  | JObj kvs => match obj_get k kvs with Some x => Ok x | None => Exc KeyError end
  | _ => Exc TypeError (* list / str indices must be integers, or not subscriptable *)
  end.

(** Python's [d.get(key, default)] where [d] is the value returned by
    [json.load].  A dict decoded from JSON has [str] keys only, so a key that
    is not a [str] never matches; a list or dict key is unhashable. *)
Definition dict_get (d : json) (key : json) (default : json) : res json :=
  match d with
  | JObj kvs =>
      match key with
      | JArr _ | JObj _ => Exc TypeError
      | JStr s => Ok (match obj_get s kvs with Some m => m | None => default end)
      | JNull | JBool _ | JNum _ => Ok default
      end
  | _ => Exc AttributeError
  end.

(** ** HTTP messages *)

Record response : Type := mkResponse {
  status_code : Z;
  content : string
}.

Inductive body_data : Type :=
| NoData
| FormData (payload : list (string * pyarg))
| FileData (bytes : string).

Record request : Type := mkRequest {
  method : string;
  url : string;
  headers : list (string * string);
  params : list (string * pyarg);
  data : body_data
}.

(** [requests] drops parameters whose value is [None] when it encodes
    [params=] or [data=]. *)
Definition encode_params (ps : list (string * pyarg)) : list (string * pyarg) :=
  filter (fun p => match snd p with PNone => false | _ => true end) ps.

Fixpoint assoc {V} (k : string) (kvs : list (string * V)) : option V :=
  match kvs with
  | [] => None
  | (k', v) :: t => if String.eqb k k' then Some v else assoc k t
  end.

(** [Response.raise_for_status()]. *)
Definition raise_for_status (r : response) : option exn :=
  if (400 <=? status_code r)%Z && (status_code r <? 600)%Z then Some HTTPError else None.

(** ** The client object *)

Record RD : Type := mkRD {
  rd_apitoken : string;
  base_url : string;
  header : list (string * string);
  error_codes : json
}.

(** Lines written with [logging.error] / [logging.info]. *)
Inductive log_entry : Type :=
| LogRequestError (e : exn)          (* logging.error(errh) ... logging.error(err) *)
| LogVendorError (code msg : json)   (* logging.error(f'Error {code}: {error_message}') *)
| LogHandlingError (e : exn)         (* 'An error occurred while handling the response' *)
| LogTokenEmpty                      (* check_token: 'API Token is empty' *)
| LogTokenValid.                     (* check_token: 'API Token is valid' *)

(** [RD.__init__(api_token)]: [env_token] is [os.getenv('RD_APITOKEN')] and
    [error_codes_file] the outcome of [json.load(open(.../error_codes.json))]. *)
Definition rd_init (api_token : option string) (env_token : option string)
    (error_codes_file : res json) : res RD :=
  let api_token := match api_token with None => env_token | Some t => Some t end in
  match api_token with
  | None => Exc ValueError
  | Some t =>
      if String.eqb t "" then Exc ValueError
      else match error_codes_file with
           | Exc e => Exc e
           | Ok tbl =>
               Ok {| rd_apitoken := t;
                     base_url := "https://api.real-debrid.com/rest/1.0";
                     header := [("Authorization", ("Bearer " ++ t)%string)];
                     error_codes := tbl |}
           end
  end.

(** ** State and exceptions *)

Record state : Type := mkState {
  client : RD;
  log : list log_entry;
  sent : list request
}.

Definition M (A : Type) : Type := state -> state * res A.

Definition ret {A} (a : A) : M A := fun s => (s, Ok a).
Definition raise {A} (e : exn) : M A := fun s => (s, Exc e).
Definition bind {A B} (m : M A) (k : A -> M B) : M B :=
  fun s => match m s with
           | (s', Ok a) => k a s'
           | (s', Exc e) => (s', Exc e)
           end.

Notation "x <- m ;; k" := (bind m (fun x => k))
  (at level 61, m at next level, right associativity).
Notation "m ;;; k" := (bind m (fun _ => k))
  (at level 61, right associativity).

Definition self : M RD := fun s => (s, Ok (client s)).

Definition log_write (l : log_entry) : M unit :=
  fun s => ({| client := client s; log := log s ++ [l]; sent := sent s |}, Ok tt).

Definition lift {A} (r : res A) : M A :=
  match r with Ok a => ret a | Exc e => raise e end.

(** Values returned by the client's methods: a [requests.Response], a
    decoded JSON body, or [None]. *)
Inductive pyval : Type :=
| PyResponse (r : response)
| PyJson (j : json)
| PyNoneVal.

(** Binding of keyword arguments to a signature whose parameters all default
    to [None]; an unexpected keyword raises [TypeError].  The result lists the
    parameters in declaration order, as the call site passes them on. *)
Definition bind_kwargs (names : list string) (kw : list (string * pyarg))
    : res (list (string * pyarg)) :=
  if forallb (fun p => existsb (String.eqb (fst p)) names) kw
  then Ok (map (fun n => (n, match assoc n kw with Some v => v | None => PNone end)) names)
  else Exc TypeError.

Section Client.

(** [requests.get/post/put/delete]: the network either answers with a
    response or raises (connection error, timeout, ...). *)
Variable transport : request -> response + exn.
(** The JSON decoder behind [Response.json()]; [None] when the body is not
    valid JSON. *)
Variable decode : string -> option json.
(** Contents of the local files, for [open(filepath, 'rb')]. *)
Variable files : string -> option string.

Definition send (req : request) : M response :=
  fun s =>
    let s' := {| client := client s; log := log s; sent := sent s ++ [req] |} in
    match transport req with
    | inl r => (s', Ok r)
    | inr e => (s', Exc e)
    end.

(** [Response.json()]. *)
Definition response_json (r : response) : res json :=
  match decode (content r) with
  | Some j => Ok j
  | None => Exc JSONDecodeError
  end.

(** The first [try] block of [RD.handler]. *)
Definition handle_status (request : response) : M unit :=
  match raise_for_status request with
  | Some e => log_write (LogRequestError e)
  | None => ret tt
  end.

(** The body of the second [try] block of [RD.handler], up to its logging
    call: [Ok (Some (code, error_message))] when an error code was found. *)
Definition inspect_error_code (error_codes : json) (request : response)
    : res (option (json * json)) :=
  body <-? response_json request ;;
  has_code <-? py_contains "error_code" body ;;
  if has_code then
    body' <-? response_json request ;;
    code <-? py_getitem body' "error_code" ;;
    error_message <-? dict_get error_codes code (JStr "Unknown Error") ;;
    Ok (Some (code, error_message))
  else Ok None.

(** [RD.handler]. *)
Definition handler (request : response) : M response :=
  handle_status request ;;;
  rd <- self ;;
  match inspect_error_code (error_codes rd) request with
  | Ok (Some (code, error_message)) => log_write (LogVendorError code error_message)
  | Ok None => ret tt
  | Exc e => log_write (LogHandlingError e)
  end ;;;
  ret request.

(** [RD.get(path, **options)]. *)
Definition rd_get (path : string) (options : list (string * pyarg)) : M response :=
  rd <- self ;;
  request <- send (mkRequest "GET" (base_url rd ++ path)%string (header rd) options NoData) ;;
  handler request.

(** [RD.post(path, **payload)]. *)
Definition rd_post (path : string) (payload : list (string * pyarg)) : M response :=
  rd <- self ;;
  request <- send (mkRequest "POST" (base_url rd ++ path)%string (header rd) [] (FormData payload)) ;;
  handler request.

(** [RD.put(path, filepath, **payload)]. *)
Definition rd_put (path filepath : string) (payload : list (string * pyarg)) : M response :=
  rd <- self ;;
  match files filepath with
  | None => raise FileNotFoundError
  | Some file =>
      request <- send (mkRequest "PUT" (base_url rd ++ path)%string (header rd) payload (FileData file)) ;;
      handler request
  end.

(** [RD.delete(path)]. *)
Definition rd_delete (path : string) : M response :=
  rd <- self ;;
  request <- send (mkRequest "DELETE" (base_url rd ++ path)%string (header rd) [] NoData) ;;
  handler request.

(** [RD.check_token(token)]. *)
Definition check_token (token : option string) : M unit :=
  match token with
  | None => log_write LogTokenEmpty
  | Some t => if String.eqb t "" then log_write LogTokenEmpty else log_write LogTokenValid
  end.

(** A method that returns the raw response, and one that returns
    [response.json()]. *)
Definition raw (m : M response) : M pyval := r <- m ;; ret (PyResponse r).
Definition json_of (m : M response) : M pyval :=
  r <- m ;; j <- lift (response_json r) ;; ret (PyJson j).

(** ** Resource groups (the nested classes of [RD]); [id], [hash], [magnet]
    and [files] are passed as strings, on which [str] is the identity. *)

Definition System_disable_token : M pyval := raw (rd_get "/disable_access_token" []).
Definition System_time : M pyval := raw (rd_get "/time" []).
Definition System_iso_time : M pyval := raw (rd_get "/time/iso" []).

Definition User_get : M pyval := json_of (rd_get "/user" []).

Definition Unrestrict_check (link password : pyarg) : M pyval :=
  json_of (rd_post "/unrestrict/check" [("link", link); ("password", password)]).
Definition Unrestrict_link (link password remote : pyarg) : M pyval :=
  json_of (rd_post "/unrestrict/link" [("link", link); ("password", password); ("remote", remote)]).
Definition Unrestrict_folder (link : pyarg) : M pyval :=
  raw (rd_post "/unrestrict/folder" [("link", link)]).
Definition Unrestrict_container_file (filepath : string) : M pyval :=
  raw (rd_put "/unrestrict/containerFile" filepath []).
Definition Unrestrict_container_link (link : pyarg) : M pyval :=
  raw (rd_post "/unrestrict/containerLink" [("link", link)]).

Definition Traffic_get : M pyval := json_of (rd_get "/traffic" []).
Definition Traffic_details (start end_ : pyarg) : M pyval :=
  json_of (rd_get "/traffic/details" [("start", start); ("end", end_)]).

Definition Streaming_transcode (id : string) : M pyval :=
  json_of (rd_get ("/streaming/transcode/" ++ id)%string []).
Definition Streaming_media_info (id : string) : M pyval :=
  json_of (rd_get ("/streaming/mediaInfos/" ++ id)%string []).

(** [Downloads.get(offset=None, page=None, limit=None)], called with the
    keyword arguments [kw]. *)
Definition Downloads_get (kw : list (string * pyarg)) : M pyval :=
  options <- lift (bind_kwargs ["offset"; "page"; "limit"] kw) ;;
  raw (rd_get "/downloads" options).
Definition Downloads_delete (id : string) : M pyval :=
  raw (rd_delete ("/downloads/delete/" ++ id)%string).

(** [Torrents.get(offset=None, page=None, limit=None, filter=None)]. *)
Definition Torrents_get (kw : list (string * pyarg)) : M pyval :=
  options <- lift (bind_kwargs ["offset"; "page"; "limit"; "filter"] kw) ;;
  raw (rd_get "/torrents" options).
Definition Torrents_info (id : string) : M pyval :=
  raw (rd_get ("/torrents/info/" ++ id)%string []).
Definition Torrents_instant_availability (hash : string) : M pyval :=
  raw (rd_get ("/torrents/instantAvailability/" ++ hash)%string []).
Definition Torrents_active_count : M pyval := raw (rd_get "/torrents/activeCount" []).
Definition Torrents_available_hosts : M pyval := raw (rd_get "/torrents/availableHosts" []).
Definition Torrents_add_file (filepath : string) (host : pyarg) : M pyval :=
  raw (rd_put "/torrents/addTorrent" filepath [("host", host)]).
Definition Torrents_add_magnet (magnet : string) (host : pyarg) : M pyval :=
  let magnet_link := ("magnet:?xt=urn:btih:" ++ magnet)%string in
  raw (rd_post "/torrents/addMagnet" [("magnet", PStr magnet_link); ("host", host)]).
Definition Torrents_select_files (id files_ : string) : M pyval :=
  raw (rd_post ("/torrents/selectFiles/" ++ id)%string [("files", PStr files_)]).
Definition Torrents_delete (id : string) : M pyval :=
  raw (rd_delete ("/torrents/delete/" ++ id)%string).

Definition Hosts_get : M pyval := raw (rd_get "/hosts" []).
Definition Hosts_status : M pyval := raw (rd_get "/hosts/status" []).
Definition Hosts_regex : M pyval := raw (rd_get "/hosts/regex" []).
Definition Hosts_regex_folder : M pyval := raw (rd_get "/hosts/regexFolder" []).
Definition Hosts_domains : M pyval := raw (rd_get "/hosts/domains" []).

Definition Settings_get : M pyval := raw (rd_get "/settings" []).
Definition Settings_update (setting_name setting_value : pyarg) : M pyval :=
  raw (rd_post "/settings/update"
         [("setting_name", setting_name); ("setting_value", setting_value)]).
Definition Settings_convert_points : M pyval := raw (rd_post "/settings/convertPoints" []).
Definition Settings_change_password : M pyval := raw (rd_post "/settings/changePassword" []).
Definition Settings_avatar_file (filepath : string) : M pyval :=
  raw (rd_put "/settings/avatarFile" filepath []).
Definition Settings_avatar_delete : M pyval := raw (rd_delete "/settings/avatarDelete").

End Client.

(** ** Every operation of a constructed client *)

Inductive call : Type :=
| CGet (path : string) (options : list (string * pyarg))
| CPost (path : string) (payload : list (string * pyarg))
| CPut (path filepath : string) (payload : list (string * pyarg))
| CDelete (path : string)
| CHandler (r : response)
| CCheckToken (token : option string)
| CSystemDisableToken | CSystemTime | CSystemIsoTime
| CUserGet
| CUnrestrictCheck (link password : pyarg)
| CUnrestrictLink (link password remote : pyarg)
| CUnrestrictFolder (link : pyarg)
| CUnrestrictContainerFile (filepath : string)
| CUnrestrictContainerLink (link : pyarg)
| CTrafficGet
| CTrafficDetails (start end_ : pyarg)
| CStreamingTranscode (id : string)
| CStreamingMediaInfo (id : string)
| CDownloadsGet (kw : list (string * pyarg))
| CDownloadsDelete (id : string)
| CTorrentsGet (kw : list (string * pyarg))
| CTorrentsInfo (id : string)
| CTorrentsInstantAvailability (hash : string)
| CTorrentsActiveCount | CTorrentsAvailableHosts
| CTorrentsAddFile (filepath : string) (host : pyarg)
| CTorrentsAddMagnet (magnet : string) (host : pyarg)
| CTorrentsSelectFiles (id files_ : string)
| CTorrentsDelete (id : string)
| CHostsGet | CHostsStatus | CHostsRegex | CHostsRegexFolder | CHostsDomains
| CSettingsGet
| CSettingsUpdate (setting_name setting_value : pyarg)
| CSettingsConvertPoints | CSettingsChangePassword
| CSettingsAvatarFile (filepath : string)
| CSettingsAvatarDelete.

Section Run.
Variable transport : request -> response + exn.
Variable decode : string -> option json.
Variable files : string -> option string.

Definition run_call (c : call) : M pyval :=
  match c with
  | CGet p o => raw (rd_get transport decode p o)
  | CPost p d => raw (rd_post transport decode p d)
  | CPut p f d => raw (rd_put transport decode files p f d)
  | CDelete p => raw (rd_delete transport decode p)
  | CHandler r => raw (handler decode r)
  | CCheckToken t => check_token t ;;; ret PyNoneVal
  | CSystemDisableToken => System_disable_token transport decode
  | CSystemTime => System_time transport decode
  | CSystemIsoTime => System_iso_time transport decode
  | CUserGet => User_get transport decode
  | CUnrestrictCheck l p => Unrestrict_check transport decode l p
  | CUnrestrictLink l p r => Unrestrict_link transport decode l p r
  | CUnrestrictFolder l => Unrestrict_folder transport decode l
  | CUnrestrictContainerFile f => Unrestrict_container_file transport decode files f
  | CUnrestrictContainerLink l => Unrestrict_container_link transport decode l
  | CTrafficGet => Traffic_get transport decode
  | CTrafficDetails a b => Traffic_details transport decode a b
  | CStreamingTranscode i => Streaming_transcode transport decode i
  | CStreamingMediaInfo i => Streaming_media_info transport decode i
  | CDownloadsGet kw => Downloads_get transport decode kw
  | CDownloadsDelete i => Downloads_delete transport decode i
  | CTorrentsGet kw => Torrents_get transport decode kw
  | CTorrentsInfo i => Torrents_info transport decode i
  | CTorrentsInstantAvailability h => Torrents_instant_availability transport decode h
  | CTorrentsActiveCount => Torrents_active_count transport decode
  | CTorrentsAvailableHosts => Torrents_available_hosts transport decode
  | CTorrentsAddFile f h => Torrents_add_file transport decode files f h
  | CTorrentsAddMagnet m h => Torrents_add_magnet transport decode m h
  | CTorrentsSelectFiles i f => Torrents_select_files transport decode i f
  | CTorrentsDelete i => Torrents_delete transport decode i
  | CHostsGet => Hosts_get transport decode
  | CHostsStatus => Hosts_status transport decode
  | CHostsRegex => Hosts_regex transport decode
  | CHostsRegexFolder => Hosts_regex_folder transport decode
  | CHostsDomains => Hosts_domains transport decode
  | CSettingsGet => Settings_get transport decode
  | CSettingsUpdate n v => Settings_update transport decode n v
  | CSettingsConvertPoints => Settings_convert_points transport decode
  | CSettingsChangePassword => Settings_change_password transport decode
  | CSettingsAvatarFile f => Settings_avatar_file transport decode files f
  | CSettingsAvatarDelete => Settings_avatar_delete transport decode
  end.

End Run.

(** ** Observations on runs *)

Definition http_log (r : response) : list log_entry :=
  match raise_for_status r with Some e => [LogRequestError e] | None => [] end.

Definition inspect_log (tbl : json) (decode : string -> option json) (r : response)
    : list log_entry :=
  match inspect_error_code decode tbl r with
  | Ok (Some (code, msg)) => [LogVendorError code msg]
  | Ok None => []
  | Exc e => [LogHandlingError e]
  end.

(** An operation that keeps the client object and sends only requests that
    carry the client's header. *)
Definition well_behaved {A} (m : M A) : Prop :=
  forall s, client (fst (m s)) = client s /\
    exists new, sent (fst (m s)) = sent s ++ new /\
                Forall (fun r => headers r = header (client s)) new.

(** The form field [k] of a request, as [requests] encodes [data=]. *)
Definition form_param (k : string) (req : request) : option pyarg :=
  match data req with
  | FormData payload => assoc k (encode_params payload)
  | _ => None
  end.

(** The resource-group methods that return [response.json()] rather than
    the response itself. *)
Definition decodes_body (c : call) : bool :=
  match c with
  | CUserGet | CUnrestrictCheck _ _ | CUnrestrictLink _ _ _ | CTrafficGet
  | CTrafficDetails _ _ | CStreamingTranscode _ | CStreamingMediaInfo _ => true
  | _ => false
  end.


(** ** Shared lemmas *)

(** An operation that keeps the client object, only appends to the log, and
    sends at most [n] requests, each satisfying [P] for the client. *)
Definition bounded (P : RD -> request -> Prop) (n : nat) {A} (m : M A) : Prop :=
  forall s, client (fst (m s)) = client s /\
    (exists l, log (fst (m s)) = log s ++ l) /\
    exists new, sent (fst (m s)) = sent s ++ new /\ length new <= n /\
                Forall (P (client s)) new.

(** The shape of the requests [RD.get/post/put/delete] build: one of the four
    HTTP methods, the client's header, and the base URL followed by a path. *)
Definition request_shape (rd : RD) (req : request) : Prop :=
  In (method req) ["GET"; "POST"; "PUT"; "DELETE"] /\
  headers req = header rd /\
  exists path, url req = (base_url rd ++ path)%string.

(** [handler] returns its argument and only appends to the log. *)
Lemma handler_run : forall decode r s,
  handler decode r s =
  ({| client := client s;
      log := log s ++ http_log r ++ inspect_log (error_codes (client s)) decode r;
      sent := sent s |}, Ok r).
Proof.
  intros decode r [c l q]. unfold handler, handle_status, http_log, inspect_log.
  unfold bind, self, ret, log_write; simpl.
  destruct (raise_for_status r); simpl;
  destruct (inspect_error_code decode (error_codes c) r) as [[[code msg]|]|ex]; simpl;
  rewrite ?app_nil_r, <- ?app_assoc; reflexivity.
Qed.

Create HintDb wb.

Lemma wb_ret : forall A (a : A), well_behaved (ret a).
Proof. intros A a s. split; [reflexivity|]. exists []. rewrite app_nil_r. auto. Qed.

Lemma wb_raise : forall A e, well_behaved (@raise A e).
Proof. intros A e s. split; [reflexivity|]. exists []. rewrite app_nil_r. auto. Qed.

Lemma wb_log_write : forall l, well_behaved (log_write l).
Proof. intros l s. split; [reflexivity|]. exists []. simpl. rewrite app_nil_r. auto. Qed.

Lemma wb_self : well_behaved self.
Proof. intros s. split; [reflexivity|]. exists []. rewrite app_nil_r. auto. Qed.

Lemma wb_lift : forall A (r : res A), well_behaved (lift r).
Proof. intros A [a|e]; [apply wb_ret|apply wb_raise]. Qed.

Lemma wb_bind : forall A B (m : M A) (k : A -> M B),
  well_behaved m -> (forall a, well_behaved (k a)) -> well_behaved (bind m k).
Proof.
  intros A B m k Hm Hk s. unfold bind.
  destruct (Hm s) as [Hc [n1 [Hs1 Hf1]]].
  destruct (m s) as [s' [a|e]]; simpl in *.
  - destruct (Hk a s') as [Hc2 [n2 [Hs2 Hf2]]].
    split; [congruence|]. exists (n1 ++ n2). split.
    + rewrite Hs2, Hs1, app_assoc. reflexivity.
    + apply Forall_app. split; [exact Hf1|]. rewrite <- Hc. exact Hf2.
  - split; [exact Hc|]. exists n1. auto.
Qed.

Lemma wb_handler : forall decode r, well_behaved (handler decode r).
Proof.
  intros decode r s. rewrite handler_run. split; [reflexivity|].
  exists []. simpl. rewrite app_nil_r. auto.
Qed.

#[local] Hint Resolve wb_self wb_ret wb_raise wb_log_write wb_lift wb_bind wb_handler : wb.

(** Sending a request built from the client's own header. *)
Lemma wb_send_self : forall transport (mk : RD -> request) (k : response -> M response),
  (forall rd, headers (mk rd) = header rd) -> (forall r, well_behaved (k r)) ->
  well_behaved (rd <- self ;; request <- send transport (mk rd) ;; k request).
Proof.
  intros transport mk k Hh Hk s. unfold bind at 1, self. simpl.
  unfold bind, send. simpl.
  destruct (transport (mk (client s))) as [r|e]; simpl.
  - destruct (Hk r {| client := client s; log := log s; sent := sent s ++ [mk (client s)] |})
      as [Hc [n [Hs Hf]]]; simpl in *.
    split; [exact Hc|]. exists (mk (client s) :: n). split.
    + rewrite Hs, <- app_assoc. reflexivity.
    + constructor; [apply Hh|exact Hf].
  - split; [reflexivity|]. exists [mk (client s)]. split; [reflexivity|].
    constructor; [apply Hh|constructor].
Qed.

Lemma wb_rd_get : forall transport decode p o, well_behaved (rd_get transport decode p o).
Proof.
  intros. unfold rd_get.
  apply (wb_send_self transport (fun rd => mkRequest "GET" (base_url rd ++ p)%string (header rd) o NoData));
    auto with wb.
Qed.

Lemma wb_rd_post : forall transport decode p d, well_behaved (rd_post transport decode p d).
Proof.
  intros. unfold rd_post.
  apply (wb_send_self transport
           (fun rd => mkRequest "POST" (base_url rd ++ p)%string (header rd) [] (FormData d)));
    auto with wb.
Qed.

Lemma wb_rd_delete : forall transport decode p, well_behaved (rd_delete transport decode p).
Proof.
  intros. unfold rd_delete.
  apply (wb_send_self transport
           (fun rd => mkRequest "DELETE" (base_url rd ++ p)%string (header rd) [] NoData));
    auto with wb.
Qed.

Lemma wb_rd_put : forall transport decode files p f d,
  well_behaved (rd_put transport decode files p f d).
Proof.
  intros. unfold rd_put. destruct (files f) as [file|].
  - apply (wb_send_self transport
             (fun rd => mkRequest "PUT" (base_url rd ++ p)%string (header rd) d (FileData file)));
      auto with wb.
  - apply wb_bind; [apply wb_self | intros; apply wb_raise].
Qed.

Lemma wb_raw : forall m, well_behaved m -> well_behaved (raw m).
Proof. intros m H. unfold raw. auto with wb. Qed.

Lemma wb_json_of : forall decode m, well_behaved m -> well_behaved (json_of decode m).
Proof. intros decode m H. unfold json_of. auto with wb. Qed.

#[local] Hint Resolve wb_rd_get wb_rd_post wb_rd_delete wb_rd_put wb_raw wb_json_of : wb.

Lemma wb_check_token : forall t, well_behaved (check_token t).
Proof. intros [t|]; simpl; [destruct (String.eqb t "")|]; auto with wb. Qed.

#[local] Hint Resolve wb_check_token : wb.

Lemma wb_run_call : forall transport decode files c,
  well_behaved (run_call transport decode files c).
Proof.
  intros transport decode files c.
  destruct c; simpl;
    unfold System_disable_token, System_time, System_iso_time, User_get,
      Unrestrict_check, Unrestrict_link, Unrestrict_folder, Unrestrict_container_file,
      Unrestrict_container_link, Traffic_get, Traffic_details, Streaming_transcode,
      Streaming_media_info, Downloads_get, Downloads_delete, Torrents_get, Torrents_info,
      Torrents_instant_availability, Torrents_active_count, Torrents_available_hosts,
      Torrents_add_file, Torrents_add_magnet, Torrents_select_files, Torrents_delete,
      Hosts_get, Hosts_status, Hosts_regex, Hosts_regex_folder, Hosts_domains,
      Settings_get, Settings_update, Settings_convert_points, Settings_change_password,
      Settings_avatar_file, Settings_avatar_delete;
    auto with wb.
Qed.

(** ** Claims *)

(** C3: constructing [RD] with a missing token (none given and none in the
    environment) or with the empty string raises [ValueError]; with a
    non-empty token (and the bundled error-code table loaded) construction
    succeeds and stores that token. *)
Theorem rd_init_token_validation :
  forall (env : option string) (file : res json) (t : string) (tbl : json),
  rd_init None None file = Exc ValueError /\
  rd_init (Some "") env file = Exc ValueError /\
  rd_init None (Some "") file = Exc ValueError /\
  (t <> "" -> exists rd, rd_init (Some t) env (Ok tbl) = Ok rd /\ rd_apitoken rd = t).
Proof.
  intros env file t tbl. repeat split.
  intros Ht. unfold rd_init.
  destruct (String.eqb_spec t "") as [E|E]; [contradiction|].
  eexists. split; reflexivity.
Qed.

Lemma rd_init_token_validation_witness :
  rd_init None None (Ok (JObj [])) = Exc ValueError /\
  exists rd, rd_init (Some "tok") None (Ok (JObj [])) = Ok rd /\ rd_apitoken rd = "tok".
Proof.
  destruct (rd_init_token_validation None (Ok (JObj [])) "tok" (JObj []))
    as [H1 [_ [_ H4]]].
  split; [exact H1|]. apply H4. discriminate.
Defined.

(** C4: every request sent by any operation of a constructed client carries
    the header [Authorization: Bearer <token>] for the client's token. *)
Theorem authorization_header_on_every_request :
  forall transport decode files api_token env file rd c s,
  rd_init api_token env file = Ok rd -> client s = rd ->
  forall req, In req (sent (fst (run_call transport decode files c s))) ->
  In req (sent s) \/
  assoc "Authorization" (headers req) = Some ("Bearer " ++ rd_apitoken rd)%string.
Proof.
  intros transport decode files api_token env file rd c s Hinit Hs req Hin.
  assert (Hh : header rd = [("Authorization", ("Bearer " ++ rd_apitoken rd)%string)]).
  { unfold rd_init in Hinit.
    destruct (match api_token with None => env | Some t => Some t end) as [t|];
      [|discriminate].
    destruct (String.eqb t ""); [discriminate|].
    destruct file as [tbl|e]; [|discriminate].
    injection Hinit as <-. reflexivity. }
  destruct (wb_run_call transport decode files c s) as [_ [new [Hsent Hf]]].
  rewrite Hsent in Hin. apply in_app_or in Hin as [Hin|Hin]; [left; exact Hin|right].
  rewrite Forall_forall in Hf. rewrite (Hf req Hin), Hs, Hh. simpl. reflexivity.
Qed.

Lemma authorization_header_on_every_request_witness :
  exists req,
  In req (sent (fst (run_call (fun _ => inl (mkResponse 200 "{}")) (fun _ => None)
                 (fun _ => None) CTorrentsActiveCount
                 {| client := {| rd_apitoken := "tok";
                                 base_url := "https://api.real-debrid.com/rest/1.0";
                                 header := [("Authorization", "Bearer tok")];
                                 error_codes := JObj [] |};
                    log := []; sent := [] |}))) /\
  (In req [] \/ assoc "Authorization" (headers req) = Some "Bearer tok").
Proof.
  exists (mkRequest "GET" "https://api.real-debrid.com/rest/1.0/torrents/activeCount"
            [("Authorization", "Bearer tok")] [] NoData).
  assert (Hin : In (mkRequest "GET" "https://api.real-debrid.com/rest/1.0/torrents/activeCount"
            [("Authorization", "Bearer tok")] [] NoData)
    (sent (fst (run_call (fun _ => inl (mkResponse 200 "{}")) (fun _ => None)
                 (fun _ => None) CTorrentsActiveCount
                 {| client := {| rd_apitoken := "tok";
                                 base_url := "https://api.real-debrid.com/rest/1.0";
                                 header := [("Authorization", "Bearer tok")];
                                 error_codes := JObj [] |};
                    log := []; sent := [] |})))).
  { vm_compute. left. reflexivity. }
  split; [exact Hin|].
  exact (authorization_header_on_every_request (fun _ => inl (mkResponse 200 "{}"))
           (fun _ => None) (fun _ => None) (Some "tok") None (Ok (JObj []))
           {| rd_apitoken := "tok";
              base_url := "https://api.real-debrid.com/rest/1.0";
              header := [("Authorization", "Bearer tok")];
              error_codes := JObj [] |}
           CTorrentsActiveCount
           {| client := {| rd_apitoken := "tok";
                           base_url := "https://api.real-debrid.com/rest/1.0";
                           header := [("Authorization", "Bearer tok")];
                           error_codes := JObj [] |};
              log := []; sent := [] |}
           eq_refl eq_refl _ Hin).
Defined.

(** C8: no operation of the client (request primitives, [handler],
    [check_token] or any resource-group method) changes the client object:
    token, base URL, header and error-code table are the same afterwards. *)
Theorem client_config_unchanged :
  forall transport decode files c s,
  client (fst (run_call transport decode files c s)) = client s.
Proof.
  intros transport decode files c s.
  exact (proj1 (wb_run_call transport decode files c s)).
Qed.

(** C9: [handler] returns the very response it was given, whatever its
    status and body. *)
Theorem handler_returns_its_argument :
  forall decode r s, snd (handler decode r s) = Ok r.
Proof. intros decode r s. rewrite handler_run. reflexivity. Qed.

(** C5: when the body is not valid JSON (including an empty body), the
    decoding failure inside [handler] is caught and logged, and [handler]
    still returns the raw response; for every body whatsoever, [handler]
    returns its response. *)
Theorem handler_survives_malformed_body :
  forall decode r s,
  decode (content r) = None ->
  handler decode r s =
  ({| client := client s;
      log := log s ++ http_log r ++ [LogHandlingError JSONDecodeError];
      sent := sent s |}, Ok r) /\
  (forall r' s', snd (handler decode r' s') = Ok r').
Proof.
  intros decode r s Hd. split.
  - rewrite handler_run. unfold inspect_log, inspect_error_code, response_json.
    rewrite Hd. reflexivity.
  - intros r' s'. rewrite handler_run. reflexivity.
Qed.

Lemma handler_survives_malformed_body_witness :
  handler (fun _ => None) (mkResponse 200 "")
    {| client := {| rd_apitoken := "tok";
                    base_url := "https://api.real-debrid.com/rest/1.0";
                    header := [("Authorization", "Bearer tok")];
                    error_codes := JObj [] |};
       log := []; sent := [] |} =
  ({| client := {| rd_apitoken := "tok";
                   base_url := "https://api.real-debrid.com/rest/1.0";
                   header := [("Authorization", "Bearer tok")];
                   error_codes := JObj [] |};
      log := [LogHandlingError JSONDecodeError]; sent := [] |}, Ok (mkResponse 200 "")).
Proof.
  exact (proj1 (handler_survives_malformed_body (fun _ => None) (mkResponse 200 "")
    {| client := {| rd_apitoken := "tok";
                    base_url := "https://api.real-debrid.com/rest/1.0";
                    header := [("Authorization", "Bearer tok")];
                    error_codes := JObj [] |};
       log := []; sent := [] |} eq_refl)).
Defined.

(** C6: [torrents.add_magnet(s)] sends one POST whose [magnet] form field is
    ['magnet:?xt=urn:btih:' + s]; for [s = "ABCDEF"] the field is
    ['magnet:?xt=urn:btih:ABCDEF']. *)
Theorem add_magnet_builds_magnet_link :
  forall transport decode magnet host s,
  (exists req,
     sent (fst (Torrents_add_magnet transport decode magnet host s)) = sent s ++ [req] /\
     method req = "POST" /\
     url req = (base_url (client s) ++ "/torrents/addMagnet")%string /\
     form_param "magnet" req = Some (PStr ("magnet:?xt=urn:btih:" ++ magnet)%string)) /\
  (exists req,
     sent (fst (Torrents_add_magnet transport decode "ABCDEF" host s)) = sent s ++ [req] /\
     form_param "magnet" req = Some (PStr "magnet:?xt=urn:btih:ABCDEF")).
Proof.
  intros transport decode magnet host s.
  split;
    [ eexists (mkRequest "POST" (base_url (client s) ++ "/torrents/addMagnet")%string
                 (header (client s)) []
                 (FormData [("magnet", PStr ("magnet:?xt=urn:btih:" ++ magnet)%string);
                            ("host", host)]))
    | eexists (mkRequest "POST" (base_url (client s) ++ "/torrents/addMagnet")%string
                 (header (client s)) []
                 (FormData [("magnet", PStr "magnet:?xt=urn:btih:ABCDEF"); ("host", host)])) ];
    unfold Torrents_add_magnet, raw, rd_post, bind, self, send; simpl;
    destruct (transport _) as [r|e]; try rewrite handler_run; simpl;
    repeat split.
Qed.

(** C7: a listing call without arguments is the same computation as the
    call with every optional argument given explicitly as [None]; both send
    [GET] with all options [None], which [requests] leaves out. *)
Theorem listing_defaults_are_none :
  forall transport decode,
  Downloads_get transport decode [] =
    Downloads_get transport decode [("offset", PNone); ("page", PNone); ("limit", PNone)] /\
  Downloads_get transport decode [] =
    raw (rd_get transport decode "/downloads"
           [("offset", PNone); ("page", PNone); ("limit", PNone)]) /\
  Torrents_get transport decode [] =
    Torrents_get transport decode
      [("offset", PNone); ("page", PNone); ("limit", PNone); ("filter", PNone)] /\
  Torrents_get transport decode [] =
    raw (rd_get transport decode "/torrents"
           [("offset", PNone); ("page", PNone); ("limit", PNone); ("filter", PNone)]) /\
  encode_params [("offset", PNone); ("page", PNone); ("limit", PNone); ("filter", PNone)] = [].
Proof. intros transport decode. repeat split. Qed.

(** C10: when the server answers with a body that is not JSON, the methods
    that return [response.json()] ([user.get], [unrestrict.check],
    [unrestrict.link], [traffic.get], [traffic.details],
    [streaming.transcode], [streaming.media_info]) raise the decoding error
    to their caller, although [handler] caught it; no other operation raises
    it. *)
Theorem json_methods_raise_on_non_json_body :
  forall decode files r s,
  decode (content r) = None ->
  forall c,
  (decodes_body c = true ->
   snd (run_call (fun _ => inl r) decode files c s) = Exc JSONDecodeError) /\
  (decodes_body c = false ->
   snd (run_call (fun _ => inl r) decode files c s) <> Exc JSONDecodeError).
Proof.
  intros decode files r s Hd c.
  destruct c; simpl;
    unfold System_disable_token, System_time, System_iso_time, User_get,
      Unrestrict_check, Unrestrict_link, Unrestrict_folder, Unrestrict_container_file,
      Unrestrict_container_link, Traffic_get, Traffic_details, Streaming_transcode,
      Streaming_media_info, Downloads_get, Downloads_delete, Torrents_get, Torrents_info,
      Torrents_instant_availability, Torrents_active_count, Torrents_available_hosts,
      Torrents_add_file, Torrents_add_magnet, Torrents_select_files, Torrents_delete,
      Hosts_get, Hosts_status, Hosts_regex, Hosts_regex_folder, Hosts_domains,
      Settings_get, Settings_update, Settings_convert_points, Settings_change_password,
      Settings_avatar_file, Settings_avatar_delete,
      raw, json_of, rd_get, rd_post, rd_put, rd_delete, check_token,
      bind, self, send, lift, ret, raise;
    simpl;
    repeat match goal with
           | |- context [handler ?d ?q ?st] => rewrite (handler_run d q st); simpl
           | |- context [files ?f] => destruct (files f); simpl
           | |- context [bind_kwargs ?n ?k] => unfold bind_kwargs; simpl
           | |- context [if ?b then _ else _] => destruct b; simpl
           | |- context [match ?t with Some _ => _ | None => _ end] => destruct t; simpl
           end;
    unfold response_json; rewrite ?Hd; simpl;
    split; intros H; try discriminate; try reflexivity.
Qed.

Lemma json_methods_raise_on_non_json_body_witness :
  snd (run_call (fun _ => inl (mkResponse 200 "<html></html>")) (fun _ => None) (fun _ => None)
         CUserGet
         {| client := {| rd_apitoken := "tok";
                         base_url := "https://api.real-debrid.com/rest/1.0";
                         header := [("Authorization", "Bearer tok")];
                         error_codes := JObj [] |};
            log := []; sent := [] |}) = Exc JSONDecodeError /\
  snd (run_call (fun _ => inl (mkResponse 200 "<html></html>")) (fun _ => None) (fun _ => None)
         (CTorrentsInfo "ABC")
         {| client := {| rd_apitoken := "tok";
                         base_url := "https://api.real-debrid.com/rest/1.0";
                         header := [("Authorization", "Bearer tok")];
                         error_codes := JObj [] |};
            log := []; sent := [] |}) <> Exc JSONDecodeError.
Proof.
  split.
  - apply (proj1 (json_methods_raise_on_non_json_body (fun _ => None) (fun _ => None)
                    (mkResponse 200 "<html></html>")
                    {| client := {| rd_apitoken := "tok";
                                    base_url := "https://api.real-debrid.com/rest/1.0";
                                    header := [("Authorization", "Bearer tok")];
                                    error_codes := JObj [] |};
                       log := []; sent := [] |} eq_refl CUserGet)).
    reflexivity.
  - apply (proj2 (json_methods_raise_on_non_json_body (fun _ => None) (fun _ => None)
                    (mkResponse 200 "<html></html>")
                    {| client := {| rd_apitoken := "tok";
                                    base_url := "https://api.real-debrid.com/rest/1.0";
                                    header := [("Authorization", "Bearer tok")];
                                    error_codes := JObj [] |};
                       log := []; sent := [] |} eq_refl (CTorrentsInfo "ABC"))).
    reflexivity.
Defined.

Lemma obj_get_some_existsb : forall k kvs v,
  obj_get k kvs = Some v -> existsb (fun p => String.eqb (fst p) k) kvs = true.
Proof.
  intros k kvs v. induction kvs as [|[k' v'] t IH]; simpl; [discriminate|].
  destruct (obj_get k t) as [w|].
  - intros H. rewrite (IH H). apply orb_true_r.
  - destruct (String.eqb_spec k k') as [->|]; [|discriminate].
    intros _. rewrite String.eqb_refl. reflexivity.
Qed.

(** C1: the vendor sends [error_code] as a JSON integer, while every key of
    a dict built by [json.load] is a string: for whatever table
    [error_codes.json] holds, an integer code is never found in it, and
    [handler] reports ['Unknown Error'] instead of the table's message. *)
Theorem integer_error_code_never_resolved :
  forall decode tbl r n kvs,
  decode (content r) = Some (JObj kvs) ->
  obj_get "error_code" kvs = Some (JNum n) ->
  inspect_log (JObj tbl) decode r = [LogVendorError (JNum n) (JStr "Unknown Error")].
Proof.
  intros decode tbl r n kvs Hd Hc.
  unfold inspect_log, inspect_error_code, response_json. rewrite Hd. simpl.
  rewrite (obj_get_some_existsb _ _ _ Hc). simpl. rewrite Hc. reflexivity.
Qed.

Lemma integer_error_code_never_resolved_witness :
  obj_get "8" [("8", JStr "Bad token (expired, invalid)")] =
    Some (JStr "Bad token (expired, invalid)") /\
  log (fst (handler
              (fun b => if String.eqb b "error_code_8_body"
                        then Some (JObj [("error", JStr "bad_token"); ("error_code", JNum 8)])
                        else None)
              (mkResponse 401 "error_code_8_body")
              {| client := {| rd_apitoken := "tok";
                              base_url := "https://api.real-debrid.com/rest/1.0";
                              header := [("Authorization", "Bearer tok")];
                              error_codes := JObj [("8", JStr "Bad token (expired, invalid)")] |};
                 log := []; sent := [] |})) =
    [LogRequestError HTTPError; LogVendorError (JNum 8) (JStr "Unknown Error")].
Proof.
  split; [reflexivity|].
  assert (H := integer_error_code_never_resolved
    (fun b => if String.eqb b "error_code_8_body"
              then Some (JObj [("error", JStr "bad_token"); ("error_code", JNum 8)])
              else None)
    [("8", JStr "Bad token (expired, invalid)")] (mkResponse 401 "error_code_8_body") 8
    [("error", JStr "bad_token"); ("error_code", JNum 8)] eq_refl eq_refl).
  rewrite handler_run. cbn [client error_codes log fst]. rewrite H. reflexivity.
Defined.

(** C2: a connection error or a timeout is raised by the [requests] call in
    [RD.get] / [RD.post] / [RD.delete] before [handler] is reached, so it
    propagates to the caller and no response is returned, although
    [handler] has [except] clauses for exactly these exceptions.  An HTTP
    error status, by contrast, is caught by [handler] and the response is
    returned. *)
Theorem transport_failure_escapes_request_layer :
  forall decode path payload s r,
  snd (rd_get (fun _ => inr ConnectionError) decode path payload s) = Exc ConnectionError /\
  snd (rd_get (fun _ => inr Timeout) decode path payload s) = Exc Timeout /\
  snd (rd_post (fun _ => inr ConnectionError) decode path payload s) = Exc ConnectionError /\
  snd (rd_delete (fun _ => inr Timeout) decode path s) = Exc Timeout /\
  snd (rd_get (fun _ => inl r) decode path payload s) = Ok r.
Proof.
  intros decode path payload s r.
  unfold rd_get, rd_post, rd_delete, bind, self, send; simpl.
  rewrite handler_run. repeat split.
Qed.

(** ** Further properties of the code *)

Section Bounded.
Variable P : RD -> request -> Prop.

Lemma bd_ret : forall A (a : A), bounded P 0 (ret a).
Proof.
  intros A a s. split; [reflexivity|]. split; [exists []; now rewrite app_nil_r|].
  exists []. rewrite app_nil_r. auto.
Qed.

Lemma bd_raise : forall A e, bounded P 0 (@raise A e).
Proof.
  intros A e s. split; [reflexivity|]. split; [exists []; now rewrite app_nil_r|].
  exists []. rewrite app_nil_r. auto.
Qed.

Lemma bd_self : bounded P 0 self.
Proof.
  intros s. split; [reflexivity|]. split; [exists []; now rewrite app_nil_r|].
  exists []. rewrite app_nil_r. auto.
Qed.

Lemma bd_log_write : forall l, bounded P 0 (log_write l).
Proof.
  intros l s. split; [reflexivity|]. split; [exists [l]; reflexivity|].
  exists []. simpl. rewrite app_nil_r. auto.
Qed.

Lemma bd_lift : forall A (r : res A), bounded P 0 (lift r).
Proof. intros A [a|e]; [apply bd_ret|apply bd_raise]. Qed.

Lemma bd_bind : forall A B n k (m : M A) (f : A -> M B),
  bounded P n m -> (forall a, bounded P k (f a)) -> bounded P (n + k) (bind m f).
Proof.
  intros A B n k m f Hm Hf s. unfold bind.
  destruct (Hm s) as [Hc [[l1 Hl1] [n1 [Hs1 [Hlen1 Hp1]]]]].
  destruct (m s) as [s' [a|e]]; simpl in *.
  - destruct (Hf a s') as [Hc2 [[l2 Hl2] [n2 [Hs2 [Hlen2 Hp2]]]]].
    split; [congruence|]. split.
    + exists (l1 ++ l2). rewrite Hl2, Hl1, app_assoc. reflexivity.
    + exists (n1 ++ n2). split; [rewrite Hs2, Hs1, app_assoc; reflexivity|].
      split; [rewrite length_app; lia|].
      apply Forall_app. split; [exact Hp1|]. rewrite <- Hc. exact Hp2.
  - split; [exact Hc|]. split; [exists l1; exact Hl1|].
    exists n1. split; [exact Hs1|]. split; [lia|exact Hp1].
Qed.

Lemma bd_weaken : forall A n k (m : M A), n <= k -> bounded P n m -> bounded P k m.
Proof.
  intros A n k m Hle H s. destruct (H s) as [Hc [Hl [new [Hs [Hlen Hp]]]]].
  split; [exact Hc|]. split; [exact Hl|]. exists new. repeat split; auto. lia.
Qed.

Lemma bd_handler : forall decode r, bounded P 0 (handler decode r).
Proof.
  intros decode r s. rewrite handler_run. split; [reflexivity|]. split.
  - eexists. reflexivity.
  - exists []. simpl. rewrite app_nil_r. auto.
Qed.

Lemma bd_send_self : forall transport (mk : RD -> request) (k : response -> M response),
  (forall rd, P rd (mk rd)) -> (forall r, bounded P 0 (k r)) ->
  bounded P 1 (rd <- self ;; request <- send transport (mk rd) ;; k request).
Proof.
  intros transport mk k Hp Hk s. unfold bind at 1, self. simpl.
  unfold bind, send. simpl.
  destruct (transport (mk (client s))) as [r|e]; simpl.
  - destruct (Hk r {| client := client s; log := log s; sent := sent s ++ [mk (client s)] |})
      as [Hc [[l Hl] [n [Hs [Hlen Hf]]]]]; simpl in *.
    split; [exact Hc|]. split; [exists l; exact Hl|].
    exists (mk (client s) :: n). split; [rewrite Hs, <- app_assoc; reflexivity|].
    split; [simpl; lia|]. constructor; [apply Hp|exact Hf].
  - split; [reflexivity|]. split; [exists []; now rewrite app_nil_r|].
    exists [mk (client s)]. split; [reflexivity|]. split; [simpl; lia|].
    constructor; [apply Hp|constructor].
Qed.

End Bounded.

Create HintDb bd.

Lemma bd_raw : forall P n m, bounded P n m -> bounded P n (raw m).
Proof.
  intros P n m H. unfold raw. apply (bd_weaken P _ (n + 0)); [lia|].
  apply bd_bind; [exact H|]. intros a. apply bd_ret.
Qed.

Lemma bd_json_of : forall P decode n m, bounded P n m -> bounded P n (json_of decode m).
Proof.
  intros P decode n m H. unfold json_of. apply (bd_weaken P _ (n + (0 + 0))); [lia|].
  apply bd_bind; [exact H|]. intros a. apply bd_bind; [apply bd_lift|].
  intros j. apply bd_ret.
Qed.

Lemma shape_rd_get : forall transport decode p o,
  bounded request_shape 1 (rd_get transport decode p o).
Proof.
  intros. unfold rd_get.
  apply (bd_send_self request_shape transport
           (fun rd => mkRequest "GET" (base_url rd ++ p)%string (header rd) o NoData)).
  - intros rd. split; [simpl; auto|]. split; [reflexivity|]. exists p. reflexivity.
  - intros r. apply bd_handler.
Qed.

Lemma shape_rd_post : forall transport decode p d,
  bounded request_shape 1 (rd_post transport decode p d).
Proof.
  intros. unfold rd_post.
  apply (bd_send_self request_shape transport
           (fun rd => mkRequest "POST" (base_url rd ++ p)%string (header rd) [] (FormData d))).
  - intros rd. split; [simpl; auto|]. split; [reflexivity|]. exists p. reflexivity.
  - intros r. apply bd_handler.
Qed.

Lemma shape_rd_delete : forall transport decode p,
  bounded request_shape 1 (rd_delete transport decode p).
Proof.
  intros. unfold rd_delete.
  apply (bd_send_self request_shape transport
           (fun rd => mkRequest "DELETE" (base_url rd ++ p)%string (header rd) [] NoData)).
  - intros rd. split; [simpl; auto|]. split; [reflexivity|]. exists p. reflexivity.
  - intros r. apply bd_handler.
Qed.

Lemma shape_rd_put : forall transport decode files p f d,
  bounded request_shape 1 (rd_put transport decode files p f d).
Proof.
  intros. unfold rd_put. destruct (files f) as [file|].
  - apply (bd_send_self request_shape transport
             (fun rd => mkRequest "PUT" (base_url rd ++ p)%string (header rd) d (FileData file))).
    + intros rd. split; [simpl; auto 6|]. split; [reflexivity|]. exists p. reflexivity.
    + intros r. apply bd_handler.
  - apply (bd_weaken _ _ (0 + 0)); [lia|].
    apply bd_bind; [apply bd_self|]. intros rd. apply bd_raise.
Qed.

Lemma shape_check_token : forall t, bounded request_shape 1 (check_token t).
Proof.
  intros t. apply (bd_weaken _ _ 0); [lia|].
  destruct t as [t|]; simpl; [destruct (String.eqb t "")|]; apply bd_log_write.
Qed.

Lemma shape_kwargs : forall names kw (k : list (string * pyarg) -> M pyval),
  (forall o, bounded request_shape 1 (k o)) ->
  bounded request_shape 1 (o <- lift (bind_kwargs names kw) ;; k o).
Proof.
  intros names kw k H. apply (bd_weaken _ _ (0 + 1)); [lia|].
  apply bd_bind; [apply bd_lift|exact H].
Qed.

#[local] Hint Resolve bd_raw bd_json_of shape_rd_get shape_rd_post shape_rd_delete
  shape_rd_put shape_check_token shape_kwargs : bd.

Lemma shape_run_call : forall transport decode files c,
  bounded request_shape 1 (run_call transport decode files c).
Proof.
  intros transport decode files c.
  destruct c; simpl;
    unfold System_disable_token, System_time, System_iso_time, User_get,
      Unrestrict_check, Unrestrict_link, Unrestrict_folder, Unrestrict_container_file,
      Unrestrict_container_link, Traffic_get, Traffic_details, Streaming_transcode,
      Streaming_media_info, Downloads_get, Downloads_delete, Torrents_get, Torrents_info,
      Torrents_instant_availability, Torrents_active_count, Torrents_available_hosts,
      Torrents_add_file, Torrents_add_magnet, Torrents_select_files, Torrents_delete,
      Hosts_get, Hosts_status, Hosts_regex, Hosts_regex_folder, Hosts_domains,
      Settings_get, Settings_update, Settings_convert_points, Settings_change_password,
      Settings_avatar_file, Settings_avatar_delete;
    auto with bd.
  - apply bd_raw. apply (bd_weaken _ _ 0); [lia|]. apply bd_handler.
  - apply (bd_weaken _ _ (1 + 0)); [lia|].
    apply bd_bind; [apply shape_check_token|]. intros. apply bd_ret.
Qed.

(** X1: every operation of the client (request primitives, [handler],
    [check_token], every resource-group method) sends at most one request
    (there are no retries) and only appends lines to the log. *)
Theorem every_operation_sends_at_most_one_request :
  forall transport decode files c s,
  length (sent (fst (run_call transport decode files c s))) <= length (sent s) + 1 /\
  exists l, log (fst (run_call transport decode files c s)) = log s ++ l.
Proof.
  intros transport decode files c s.
  destruct (shape_run_call transport decode files c s) as [_ [Hl [new [Hs [Hlen _]]]]].
  split; [|exact Hl]. rewrite Hs, length_app. lia.
Qed.

(** X2: every request sent by a client built by [RD.__init__] uses one of
    GET, POST, PUT and DELETE and goes to
    [https://api.real-debrid.com/rest/1.0] followed by a path. *)
Theorem every_request_targets_base_url :
  forall transport decode files api_token env file rd c s,
  rd_init api_token env file = Ok rd -> client s = rd ->
  forall req, In req (sent (fst (run_call transport decode files c s))) ->
  In req (sent s) \/
  (In (method req) ["GET"; "POST"; "PUT"; "DELETE"] /\
   exists path, url req = ("https://api.real-debrid.com/rest/1.0" ++ path)%string).
Proof.
  intros transport decode files api_token env file rd c s Hinit Hs req Hin.
  assert (Hb : base_url rd = "https://api.real-debrid.com/rest/1.0").
  { unfold rd_init in Hinit.
    destruct (match api_token with None => env | Some t => Some t end) as [t|];
      [|discriminate].
    destruct (String.eqb t ""); [discriminate|].
    destruct file as [tbl|e]; [|discriminate].
    injection Hinit as <-. reflexivity. }
  destruct (shape_run_call transport decode files c s) as [_ [_ [new [Hsent [_ Hf]]]]].
  rewrite Hsent in Hin. apply in_app_or in Hin as [Hin|Hin]; [left; exact Hin|right].
  rewrite Forall_forall in Hf. destruct (Hf req Hin) as [Hm [_ [path Hu]]].
  split; [exact Hm|]. exists path. rewrite Hu, Hs, Hb. reflexivity.
Qed.

Lemma every_request_targets_base_url_witness :
  exists req,
  In req (sent (fst (run_call (fun _ => inl (mkResponse 200 "{}")) (fun _ => None)
                 (fun _ => None) (CTorrentsInfo "ABC")
                 {| client := {| rd_apitoken := "tok";
                                 base_url := "https://api.real-debrid.com/rest/1.0";
                                 header := [("Authorization", "Bearer tok")];
                                 error_codes := JObj [] |};
                    log := []; sent := [] |}))) /\
  (In req [] \/
   (In (method req) ["GET"; "POST"; "PUT"; "DELETE"] /\
    exists path, url req = ("https://api.real-debrid.com/rest/1.0" ++ path)%string)).
Proof.
  exists (mkRequest "GET" "https://api.real-debrid.com/rest/1.0/torrents/info/ABC"
            [("Authorization", "Bearer tok")] [] NoData).
  assert (Hin : In (mkRequest "GET" "https://api.real-debrid.com/rest/1.0/torrents/info/ABC"
            [("Authorization", "Bearer tok")] [] NoData)
    (sent (fst (run_call (fun _ => inl (mkResponse 200 "{}")) (fun _ => None)
                 (fun _ => None) (CTorrentsInfo "ABC")
                 {| client := {| rd_apitoken := "tok";
                                 base_url := "https://api.real-debrid.com/rest/1.0";
                                 header := [("Authorization", "Bearer tok")];
                                 error_codes := JObj [] |};
                    log := []; sent := [] |})))).
  { vm_compute. left. reflexivity. }
  split; [exact Hin|].
  exact (every_request_targets_base_url (fun _ => inl (mkResponse 200 "{}"))
           (fun _ => None) (fun _ => None) (Some "tok") None (Ok (JObj []))
           {| rd_apitoken := "tok";
              base_url := "https://api.real-debrid.com/rest/1.0";
              header := [("Authorization", "Bearer tok")];
              error_codes := JObj [] |}
           (CTorrentsInfo "ABC")
           {| client := {| rd_apitoken := "tok";
                           base_url := "https://api.real-debrid.com/rest/1.0";
                           header := [("Authorization", "Bearer tok")];
                           error_codes := JObj [] |};
              log := []; sent := [] |}
           eq_refl eq_refl _ Hin).
Defined.

(** X3: for a response whose body is a JSON object without an [error_code]
    key, [handler] logs one HTTP error line when the status is in
    [400, 600) and nothing otherwise. *)
Theorem handler_logs_only_http_status_for_clean_body :
  forall decode r s kvs,
  decode (content r) = Some (JObj kvs) ->
  existsb (fun p => String.eqb (fst p) "error_code") kvs = false ->
  log (fst (handler decode r s)) =
  log s ++ (if (400 <=? status_code r)%Z && (status_code r <? 600)%Z
            then [LogRequestError HTTPError] else []).
Proof.
  intros decode r s kvs Hd Hk. rewrite handler_run. simpl.
  unfold http_log, raise_for_status, inspect_log, inspect_error_code, response_json.
  rewrite Hd. simpl. rewrite Hk. simpl.
  destruct ((400 <=? status_code r)%Z && (status_code r <? 600)%Z); simpl;
    rewrite ?app_nil_r; reflexivity.
Qed.

Lemma handler_logs_only_http_status_for_clean_body_witness :
  log (fst (handler (fun _ => Some (JObj [("id", JStr "x")])) (mkResponse 503 "{}")
              {| client := {| rd_apitoken := "tok";
                              base_url := "https://api.real-debrid.com/rest/1.0";
                              header := [("Authorization", "Bearer tok")];
                              error_codes := JObj [] |};
                 log := []; sent := [] |})) = [LogRequestError HTTPError].
Proof.
  exact (handler_logs_only_http_status_for_clean_body
           (fun _ => Some (JObj [("id", JStr "x")])) (mkResponse 503 "{}")
           {| client := {| rd_apitoken := "tok";
                           base_url := "https://api.real-debrid.com/rest/1.0";
                           header := [("Authorization", "Bearer tok")];
                           error_codes := JObj [] |};
              log := []; sent := [] |} [("id", JStr "x")] eq_refl eq_refl).
Defined.

(** X4: a vendor code sent as a JSON string is looked up in the table: the
    handler reports the table's message for it, or ['Unknown Error'] when
    the table has no such key. *)
Theorem string_error_code_resolved :
  forall decode tbl r k kvs,
  decode (content r) = Some (JObj kvs) ->
  obj_get "error_code" kvs = Some (JStr k) ->
  inspect_log (JObj tbl) decode r =
  [LogVendorError (JStr k)
     (match obj_get k tbl with Some m => m | None => JStr "Unknown Error" end)].
Proof.
  intros decode tbl r k kvs Hd Hc.
  unfold inspect_log, inspect_error_code, response_json. rewrite Hd. simpl.
  rewrite (obj_get_some_existsb _ _ _ Hc). simpl. rewrite Hc. reflexivity.
Qed.

Lemma string_error_code_resolved_witness :
  inspect_log (JObj [("8", JStr "bad_token")])
    (fun _ => Some (JObj [("error_code", JStr "8")])) (mkResponse 401 "{}") =
  [LogVendorError (JStr "8") (JStr "bad_token")].
Proof.
  exact (string_error_code_resolved (fun _ => Some (JObj [("error_code", JStr "8")]))
           [("8", JStr "bad_token")] (mkResponse 401 "{}") "8"
           [("error_code", JStr "8")] eq_refl eq_refl).
Defined.

(** X5: the handler reports a vendor error only for a body that decodes to a
    JSON object whose [error_code] entry is the reported code. *)
Theorem vendor_error_only_from_error_code_field :
  forall tbl decode r code msg,
  In (LogVendorError code msg) (inspect_log tbl decode r) ->
  exists kvs, decode (content r) = Some (JObj kvs) /\ obj_get "error_code" kvs = Some code.
Proof.
  intros tbl decode r code msg.
  unfold inspect_log, inspect_error_code, response_json.
  destruct (decode (content r)) as [j|]; simpl; [|intros [H|[]]; discriminate].
  destruct j as [| | |str|xs|kvs]; simpl;
    try (intros [H|[]]; discriminate).
  - destruct (is_substring "error_code" str); simpl; intros Hin; intuition discriminate.
  - destruct (existsb _ xs); simpl; intros Hin; intuition discriminate.
  - destruct (existsb _ kvs); simpl; [|intros []].
    destruct (obj_get "error_code" kvs) as [c|] eqn:Ec; simpl; [|intros [H|[]]; discriminate].
    destruct (dict_get tbl c (JStr "Unknown Error")); simpl; intros [H|[]]; try discriminate.
    injection H as -> ->. exists kvs. auto.
Qed.

Lemma vendor_error_only_from_error_code_field_witness :
  exists kvs, Some (JObj [("error_code", JNum 8)]) = Some (JObj kvs) /\
              obj_get "error_code" kvs = Some (JNum 8).
Proof.
  apply (vendor_error_only_from_error_code_field (JObj [])
           (fun _ => Some (JObj [("error_code", JNum 8)])) (mkResponse 401 "{}")
           (JNum 8) (JStr "Unknown Error")).
  vm_compute. left. reflexivity.
Defined.

(** X6: for a body that decodes to a JSON value other than an object, the
    [in] test of the handler is Python's [in] on that value: a list or a
    string that contains ['error_code'] leads to a caught [TypeError] when
    it is indexed, one that does not is left alone, and a number, boolean or
    [null] raises a caught [TypeError] at once. *)
Theorem handler_non_object_body :
  forall tbl decode r,
  (forall xs, decode (content r) = Some (JArr xs) ->
     inspect_log tbl decode r =
     if existsb (fun x => match x with JStr s => String.eqb s "error_code" | _ => false end) xs
     then [LogHandlingError TypeError] else []) /\
  (forall str, decode (content r) = Some (JStr str) ->
     inspect_log tbl decode r =
     if is_substring "error_code" str then [LogHandlingError TypeError] else []) /\
  (forall j, decode (content r) = Some j ->
     (j = JNull \/ (exists b, j = JBool b) \/ (exists z, j = JNum z)) ->
     inspect_log tbl decode r = [LogHandlingError TypeError]).
Proof.
  intros tbl decode r. unfold inspect_log, inspect_error_code, response_json.
  split; [|split].
  - intros xs Hd. rewrite Hd. simpl.
    destruct (existsb _ xs); simpl; rewrite ?Hd; reflexivity.
  - intros str Hd. rewrite Hd. simpl.
    destruct (is_substring "error_code" str); simpl; rewrite ?Hd; reflexivity.
  - intros j Hd Hj. rewrite Hd.
    destruct Hj as [->|[[b ->]|[z ->]]]; reflexivity.
Qed.

Lemma handler_non_object_body_witness :
  inspect_log (JObj []) (fun _ => Some (JArr [JStr "error_code"])) (mkResponse 200 "[]") =
  [LogHandlingError TypeError].
Proof.
  exact (proj1 (handler_non_object_body (JObj []) (fun _ => Some (JArr [JStr "error_code"]))
                  (mkResponse 200 "[]")) [JStr "error_code"] eq_refl).
Defined.

(** X7: an [error_code] that is a JSON list or object is unhashable, so the
    table lookup raises [TypeError], which the handler catches and logs. *)
Theorem handler_unhashable_error_code :
  forall decode tbl r kvs code,
  decode (content r) = Some (JObj kvs) ->
  obj_get "error_code" kvs = Some code ->
  (exists xs, code = JArr xs) \/ (exists o, code = JObj o) ->
  inspect_log (JObj tbl) decode r = [LogHandlingError TypeError].
Proof.
  intros decode tbl r kvs code Hd Hc Hk.
  unfold inspect_log, inspect_error_code, response_json. rewrite Hd. simpl.
  rewrite (obj_get_some_existsb _ _ _ Hc). simpl. rewrite Hc.
  destruct Hk as [[xs ->]|[o ->]]; reflexivity.
Qed.

Lemma handler_unhashable_error_code_witness :
  inspect_log (JObj []) (fun _ => Some (JObj [("error_code", JArr [])])) (mkResponse 400 "{}") =
  [LogHandlingError TypeError].
Proof.
  exact (handler_unhashable_error_code (fun _ => Some (JObj [("error_code", JArr [])]))
           [] (mkResponse 400 "{}") [("error_code", JArr [])] (JArr [])
           eq_refl eq_refl (or_introl (ex_intro _ [] eq_refl))).
Defined.

(** X8: when the loaded error-code table is not a JSON object (a list, a
    string, ...), it has no [.get]: every body carrying an [error_code]
    leads to a caught [AttributeError] instead of a vendor-error line. *)
Theorem handler_table_not_object :
  forall decode tbl r kvs code,
  (forall o, tbl <> JObj o) ->
  decode (content r) = Some (JObj kvs) ->
  obj_get "error_code" kvs = Some code ->
  inspect_log tbl decode r = [LogHandlingError AttributeError].
Proof.
  intros decode tbl r kvs code Ht Hd Hc.
  unfold inspect_log, inspect_error_code, response_json. rewrite Hd. simpl.
  rewrite (obj_get_some_existsb _ _ _ Hc). simpl. rewrite Hc.
  destruct tbl as [| | | | |o]; try reflexivity.
  exfalso. apply (Ht o). reflexivity.
Qed.

Lemma handler_table_not_object_witness :
  inspect_log (JArr []) (fun _ => Some (JObj [("error_code", JNum 8)])) (mkResponse 401 "{}") =
  [LogHandlingError AttributeError].
Proof.
  apply (handler_table_not_object (fun _ => Some (JObj [("error_code", JNum 8)])) (JArr [])
           (mkResponse 401 "{}") [("error_code", JNum 8)] (JNum 8)); [|reflexivity|reflexivity].
  intros o. discriminate.
Defined.

(** X9: the token is checked before the error-code table is used: with an
    empty token construction raises [ValueError] even if loading the table
    failed, and with a non-empty token a failed load raises the load's own
    exception. *)
Theorem rd_init_checks_token_before_table :
  forall t env e,
  rd_init (Some "") env (Exc e) = Exc ValueError /\
  (t <> "" -> rd_init (Some t) env (Exc e) = Exc e).
Proof.
  intros t env e. split; [reflexivity|]. intros Ht. unfold rd_init.
  destruct (String.eqb_spec t ""); [contradiction|reflexivity].
Qed.

Lemma rd_init_checks_token_before_table_witness :
  rd_init (Some "tok") None (Exc FileNotFoundError) = Exc FileNotFoundError.
Proof.
  apply (proj2 (rd_init_checks_token_before_table "tok" None FileNotFoundError)).
  discriminate.
Defined.









(** X14: no operation catches an exception raised by the network call: for
    every operation of the client (resource-group methods included), if a
    request was sent and the transport raised [e], the operation raises [e]
    and writes nothing to the log. *)
Theorem transport_exception_reaches_every_caller :
  forall e decode files c s,
  length (sent (fst (run_call (fun _ => inr e) decode files c s))) > length (sent s) ->
  snd (run_call (fun _ => inr e) decode files c s) = Exc e /\
  log (fst (run_call (fun _ => inr e) decode files c s)) = log s.
Proof.
  intros e decode files c s.
  destruct c; simpl;
    unfold System_disable_token, System_time, System_iso_time, User_get,
      Unrestrict_check, Unrestrict_link, Unrestrict_folder, Unrestrict_container_file,
      Unrestrict_container_link, Traffic_get, Traffic_details, Streaming_transcode,
      Streaming_media_info, Downloads_get, Downloads_delete, Torrents_get, Torrents_info,
      Torrents_instant_availability, Torrents_active_count, Torrents_available_hosts,
      Torrents_add_file, Torrents_add_magnet, Torrents_select_files, Torrents_delete,
      Hosts_get, Hosts_status, Hosts_regex, Hosts_regex_folder, Hosts_domains,
      Settings_get, Settings_update, Settings_convert_points, Settings_change_password,
      Settings_avatar_file, Settings_avatar_delete,
      raw, json_of, rd_get, rd_post, rd_put, rd_delete, check_token, bind_kwargs,
      bind, self, send, lift, ret, raise, log_write;
    simpl;
    repeat match goal with
           | |- context [handler ?d ?q ?st] => rewrite (handler_run d q st); simpl
           | |- context [if ?b then _ else _] => destruct b; simpl
           | |- context [match ?t with Some _ => _ | None => _ end] => destruct t; simpl
           end;
    intros H; rewrite ?length_app in H; simpl in H; try lia; split; reflexivity.
Qed.

Lemma transport_exception_reaches_every_caller_witness :
  snd (run_call (fun _ => inr Timeout) (fun _ => None) (fun _ => None) CHostsStatus
         {| client := {| rd_apitoken := "tok";
                         base_url := "https://api.real-debrid.com/rest/1.0";
                         header := [("Authorization", "Bearer tok")];
                         error_codes := JObj [] |};
            log := []; sent := [] |}) = Exc Timeout.
Proof.
  destruct (transport_exception_reaches_every_caller Timeout (fun _ => None) (fun _ => None)
    CHostsStatus
    {| client := {| rd_apitoken := "tok";
                    base_url := "https://api.real-debrid.com/rest/1.0";
                    header := [("Authorization", "Bearer tok")];
                    error_codes := JObj [] |};
       log := []; sent := [] |}) as [H _]; [vm_compute; lia|exact H].
Defined.
